(** * setuid-sploit: a setuid-root test fixture

    Shallow embedding of [integration/rootfs/setuid-sploit.c].  The program
    is a straight line of library calls ([setuid], [execv], [perror],
    [abort]); it is embedded as a finite tree of calls whose answers come
    from the environment, and run against a model of the process and of
    the operating system that answers the calls. *)

From Stdlib Require Import ZArith List String Ascii Bool Lia.
Import ListNotations.

Local Open Scope string_scope.
Local Open Scope Z_scope.

(** ** The C library interface the program uses *)

Module Libc.

(** A [char *]: the null pointer or a string. *)
Definition cstr : Type := option string.

Definition NULL : cstr := None.

(** The calls of the program, indexed by the type of what they return to the
    caller.  [Execv] carries the path and the null-terminated vector its
    second argument points to; [Abort] returns nothing, ever.  [Other] is any
    other function of the library, by its name: the program calls none, and
    the constructor is there for this to be a statement about the program
    and not about the type of programs. *)
Variant call : Type -> Type :=
| Setuid (uid : Z) : call Z
| Execv (path : cstr) (args : list string) : call Z
| Perror (s : string) : call unit
| Abort : call Empty_set
| Other (name : string) (args : list string) : call Z.

(** Programs over these calls.  [Undefined] stands for an operation to which
    C gives no meaning. *)
Inductive prog (R : Type) : Type :=
| Ret (r : R)
| Undefined
| Call (X : Type) (c : call X) (k : X -> prog R).

Arguments Ret {R} r.
Arguments Undefined {R}.
Arguments Call {R X} c k.

Fixpoint bind {A B : Type} (m : prog A) (f : A -> prog B) : prog B :=
  match m with
  | Ret a => f a
  | Undefined => Undefined
  | Call c k => Call c (fun x => bind (k x) f)
  end.

Definition setuid (uid : Z) : prog Z := Call (Setuid uid) Ret.

Definition execv (path : cstr) (args : list string) : prog Z :=
  Call (Execv path args) Ret.

Definition perror (s : string) : prog unit := Call (Perror s) Ret.

Definition abort {R : Type} : prog R :=
  Call Abort (fun e : Empty_set => match e with end).

End Libc.

Import Libc.

Declare Scope prog_scope.
Delimit Scope prog_scope with prog.
Bind Scope prog_scope with prog.

Notation "x <- m ;; k" := (bind m (fun x => k))
  (at level 61, m at next level, right associativity) : prog_scope.
Notation "m ;; k" := (bind m (fun _ => k))
  (at level 61, right associativity) : prog_scope.

Local Open Scope prog_scope.

(** ** The argument array

    [argv] is given by the [argc] strings it points to.  As an array it has
    [argc + 1] cells: cell [i < argc] points to the i-th string, cell [argc]
    holds the null pointer, and there is no cell after that one. *)

Variant cell : Type :=
| Ptr (p : cstr)
| Outside.

Definition argv_at (argv : list string) (i : nat) : cell :=
  match nth_error argv i with
  | Some s => Ptr (Some s)
  | None => if Nat.eqb i (List.length argv) then Ptr NULL else Outside
  end.

(** Reading [argv[i]]. *)
Definition load (argv : list string) (i : nat) : prog cstr :=
  match argv_at argv i with
  | Ptr p => Ret p
  | Outside => Undefined
  end.

(** [&argv[i]] seen as a null-terminated vector: the strings from cell [i]
    up to the terminator. *)
Definition argv_from (argv : list string) (i : nat) : list string :=
  skipn i argv.

Arguments argv_from : simpl never.

(** ** The program *)

Definition main (argc : Z) (argv : list string) : prog Z :=
  r <- setuid 0 ;;
  (if r <? 0 then perror "setuid" ;; abort else Ret tt) ;;
  path <- load argv 1 ;;
  r <- execv path (argv_from argv 1) ;;
  (if r <? 0 then perror "execl" ;; abort else Ret tt) ;;
  Ret 0.

(** ** The process and the operating system *)

(** The process with what it can observe and change: its identity, [errno],
    what it has written to its two output streams, its environment (the
    [NAME=value] strings of [environ], which [execv] hands over to the new
    image as they are), and the files it can reach, by path and content. *)
Record process : Type := mkProcess {
  uid : Z;
  errno : Z;
  stdout : string;
  stderr : string;
  environ : list string;
  files : list (string * string)
}.

Definition set_uid (u : Z) (p : process) : process :=
  mkProcess u (errno p) (stdout p) (stderr p) (environ p) (files p).

Definition set_errno (e : Z) (p : process) : process :=
  mkProcess (uid p) e (stdout p) (stderr p) (environ p) (files p).

Definition write_stderr (s : string) (p : process) : process :=
  mkProcess (uid p) (errno p) (stdout p) (stderr p ++ s) (environ p) (files p).

(** What the system decides.  [sys_setuid u p] and [sys_execve path args p]
    are [None] when the request of process [p] is granted and [Some e] when
    it is refused with error number [e]; [strerror] is the table of error
    descriptions; [sys_other name args p] is what any other function of the
    library returns and what it makes of the process. *)
Record system : Type := mkSystem {
  sys_setuid : Z -> process -> option Z;
  sys_execve : cstr -> list string -> process -> option Z;
  strerror : Z -> string;
  sys_other : string -> list string -> process -> Z * process
}.

(** The line [perror] writes: the label, a colon and a space when the label is
    not empty, then the description of [errno] and a newline. *)
Definition newline : string := String (ascii_of_nat 10) EmptyString.

Definition perror_text (s : string) (msg : string) : string :=
  match s with
  | EmptyString => msg ++ newline
  | _ => s ++ ": " ++ msg ++ newline
  end.

(** How a process ends. *)
Variant outcome : Type :=
| Replaced (path : cstr) (args : list string)
| Aborted
| Returned (status : Z)
| Undef.

(** The calls as they are seen from outside, without their answers. *)
Variant request : Type :=
| ReqSetuid (uid : Z)
| ReqExecv (path : cstr) (args : list string)
| ReqPerror (s : string)
| ReqAbort
| ReqOther (name : string) (args : list string).

Definition request_of {X : Type} (c : call X) : request :=
  match c with
  | Setuid u => ReqSetuid u
  | Execv path args => ReqExecv path args
  | Perror s => ReqPerror s
  | Abort => ReqAbort
  | Other name args => ReqOther name args
  end.

(** The answer to one call: control comes back with a value, or it never
    does. *)
Variant reply (X : Type) : Type :=
| Resume (x : X) (p : process)
| Halt (o : outcome) (p : process).

Arguments Resume {X} x p.
Arguments Halt {X} o p.

(** [setuid] returns 0 and the identity is changed, or -1 with [errno] set.
    [execv] returns only when it fails, -1 with [errno] set; granted, the
    process image is replaced and the caller is gone.  [abort] does not
    return. *)
Definition handle (S : system) {X : Type} (c : call X) (p : process)
  : reply X :=
  match c in call T return reply T with
  | Setuid u =>
      match sys_setuid S u p with
      | None => Resume 0 (set_uid u p)
      | Some e => Resume (-1) (set_errno e p)
      end
  | Execv path args =>
      match sys_execve S path args p with
      | None => Halt (Replaced path args) p
      | Some e => Resume (-1) (set_errno e p)
      end
  | Perror s =>
      Resume tt (write_stderr (perror_text s (strerror S (errno p))) p)
  | Abort => Halt Aborted p
  | Other name args =>
      Resume (fst (sys_other S name args p)) (snd (sys_other S name args p))
  end.

Record result : Type := mkResult {
  ending : outcome;
  trace : list request;
  final : process
}.

Definition after (q : request) (r : result) : result :=
  mkResult (ending r) (q :: trace r) (final r).

Fixpoint run (S : system) (m : prog Z) (p : process) : result :=
  match m with
  | Ret z => mkResult (Returned z) [] p
  | Undefined => mkResult Undef [] p
  | Call c k =>
      match handle S c p with
      | Resume x p' => after (request_of c) (run S (k x) p')
      | Halt o p' => mkResult o [request_of c] p'
      end
  end.

(** ** Views of a trace *)

Definition is_setuid (q : request) : bool :=
  match q with ReqSetuid _ => true | _ => false end.

Definition is_execv (q : request) : bool :=
  match q with ReqExecv _ _ => true | _ => false end.

Definition is_perror (q : request) : bool :=
  match q with ReqPerror _ => true | _ => false end.

(** The two steps of the program: identity requests and replacement
    requests. *)
Definition steps (t : list request) : list request :=
  filter (fun q => is_setuid q || is_execv q) t.

Definition exec_attempted (r : result) : bool :=
  existsb is_execv (trace r).

Definition granted (answer : option Z) : bool :=
  match answer with None => true | Some _ => false end.

(** ** Concrete systems and processes, for running the program *)

Module Fixtures.

Definition EPERM : Z := 1.
Definition ENOENT : Z := 2.
Definition EACCES : Z := 13.
Definition EFAULT : Z := 14.
Definition ENOSYS : Z := 38.

Definition describe (e : Z) : string :=
  if e =? EPERM then "Operation not permitted"
  else if e =? ENOENT then "No such file or directory"
  else if e =? EACCES then "Permission denied"
  else if e =? EFAULT then "Bad address"
  else "Unknown error".

(** The only executable of the root file system. *)
Definition lookup (path : cstr) : option Z :=
  match path with
  | None => Some EFAULT
  | Some f => if String.eqb f "/bin/echo" then None else Some ENOENT
  end.

(** Three other functions of the library: [clearenv] empties the
    environment, [puts] writes a line to the standard output, [remove]
    deletes a file; any other name is not implemented. *)
Definition other_calls (name : string) (args : list string) (p : process)
  : Z * process :=
  if String.eqb name "clearenv" then
    (0, mkProcess (uid p) (errno p) (stdout p) (stderr p) [] (files p))
  else if String.eqb name "puts" then
    (0, mkProcess (uid p) (errno p)
          (stdout p ++ String.concat "" args ++ newline) (stderr p)
          (environ p) (files p))
  else if String.eqb name "remove" then
    (0, mkProcess (uid p) (errno p) (stdout p) (stderr p) (environ p)
          (filter (fun f => negb (existsb (String.eqb (fst f)) args))
             (files p)))
  else (-1, set_errno ENOSYS p).

(** The binary carries the setuid-root bit and the bit is honoured. *)
Definition provisioned : system :=
  mkSystem (fun _ _ => None) (fun path _ _ => lookup path) describe
    other_calls.

(** The bit is stripped or ignored: the identity change is refused. *)
Definition nosuid : system :=
  mkSystem (fun _ _ => Some EPERM) (fun path _ _ => lookup path) describe
    other_calls.

(** A system outside the contract of [execv], whose replacement of a null
    path goes through. *)
Definition lenient : system :=
  mkSystem (fun _ _ => None) (fun _ _ _ => None) describe other_calls.

Definition user : process :=
  mkProcess 1000 0 "" "" ["PATH=/bin"; "HOME=/home/user"]
    [("/etc/hostname", "garden")].

End Fixtures.

Import Fixtures.

(** ** Return values as plain integers

    [handle] gives [setuid] and [execv] the return values of their contract,
    0 and -1.  To read the two tests of [main] on their own, the calls are
    answered here with integers of any value: [setuid_returns] is what
    [setuid] comes back with, [execv_returns] what [execv] comes back with,
    [None] when it does not come back, [other_returns] what any other
    function comes back with. *)

Record answers : Type := mkAnswers {
  setuid_returns : Z;
  execv_returns : option Z;
  other_returns : Z
}.

Definition answer (A : answers) {X : Type} (c : call X) : option X :=
  match c in call T return option T with
  | Setuid _ => Some (setuid_returns A)
  | Execv _ _ => execv_returns A
  | Perror _ => Some tt
  | Abort => None
  | Other _ _ => Some (other_returns A)
  end.

(** How the process ends at a call that does not come back. *)
Definition stops {X : Type} (c : call X) : outcome :=
  match c with
  | Execv path args => Replaced path args
  | _ => Aborted
  end.

Fixpoint ends (A : answers) (m : prog Z) : outcome :=
  match m with
  | Ret z => Returned z
  | Undefined => Undef
  | Call c k =>
      match answer A c with
      | Some x => ends A (k x)
      | None => stops c
      end
  end.

(** ** The runs of [main], case by case *)

Section Runs.

Variable S : system.
Variable argc : Z.

Lemma argv_at_1 (name : string) (rest : list string) :
  argv_at (name :: rest) 1 = Ptr (hd_error rest).
Proof.
  destruct rest as [|path rest']; reflexivity.
Qed.

Lemma argv_from_1 (name : string) (rest : list string) :
  argv_from (name :: rest) 1 = rest.
Proof.
  reflexivity.
Qed.

Lemma perror_text_setuid (msg : string) :
  perror_text "setuid" msg = ("setuid: " ++ msg ++ newline)%string.
Proof.
  reflexivity.
Qed.

Lemma perror_text_execl (msg : string) :
  perror_text "execl" msg = ("execl: " ++ msg ++ newline)%string.
Proof.
  reflexivity.
Qed.

(** The identity change is refused. *)
Lemma run_setuid_refused (argv : list string) (p : process) (e : Z) :
  sys_setuid S 0 p = Some e ->
  run S (main argc argv) p =
  mkResult Aborted [ReqSetuid 0; ReqPerror "setuid"; ReqAbort]
    (write_stderr (perror_text "setuid" (strerror S e)) (set_errno e p)).
Proof.
  intros Hset. unfold main. cbn. rewrite Hset. reflexivity.
Qed.

(** The identity change is granted and [argv[1]] is a cell of the array. *)
Lemma run_setuid_granted (argv : list string) (p : process) (path : cstr) :
  sys_setuid S 0 p = None ->
  argv_at argv 1 = Ptr path ->
  run S (main argc argv) p =
  after (ReqSetuid 0)
    (match sys_execve S path (argv_from argv 1) (set_uid 0 p) with
     | None =>
         mkResult (Replaced path (argv_from argv 1))
           [ReqExecv path (argv_from argv 1)] (set_uid 0 p)
     | Some e =>
         mkResult Aborted
           [ReqExecv path (argv_from argv 1); ReqPerror "execl"; ReqAbort]
           (write_stderr (perror_text "execl" (strerror S e))
              (set_errno e (set_uid 0 p)))
     end).
Proof.
  intros Hset Hcell. unfold main, load. cbn. rewrite Hset. cbn.
  rewrite Hcell. cbn.
  destruct (sys_execve S path (argv_from argv 1) (set_uid 0 p)) as [e|];
    reflexivity.
Qed.

(** The identity change is granted and [argv] is empty: [argv[1]] lies after
    the terminator. *)
Lemma run_outside (p : process) :
  sys_setuid S 0 p = None ->
  run S (main argc []) p = mkResult Undef [ReqSetuid 0] (set_uid 0 p).
Proof.
  intros Hset. unfold main. cbn. rewrite Hset. reflexivity.
Qed.

(** Every run of an invocation that has its own name in [argv[0]]. *)
Lemma run_main (name : string) (rest : list string) (p : process) :
  run S (main argc (name :: rest)) p =
  match sys_setuid S 0 p with
  | Some e =>
      mkResult Aborted [ReqSetuid 0; ReqPerror "setuid"; ReqAbort]
        (write_stderr (perror_text "setuid" (strerror S e)) (set_errno e p))
  | None =>
      match sys_execve S (hd_error rest) rest (set_uid 0 p) with
      | None =>
          mkResult (Replaced (hd_error rest) rest)
            [ReqSetuid 0; ReqExecv (hd_error rest) rest] (set_uid 0 p)
      | Some e =>
          mkResult Aborted
            [ReqSetuid 0; ReqExecv (hd_error rest) rest;
             ReqPerror "execl"; ReqAbort]
            (write_stderr (perror_text "execl" (strerror S e))
               (set_errno e (set_uid 0 p)))
      end
  end.
Proof.
  destruct (sys_setuid S 0 p) as [e|] eqn:Hset.
  - apply run_setuid_refused. exact Hset.
  - rewrite (run_setuid_granted (name :: rest) p (hd_error rest) Hset
               (argv_at_1 name rest)).
    rewrite argv_from_1.
    destruct (sys_execve S (hd_error rest) rest (set_uid 0 p)); reflexivity.
Qed.

End Runs.

(** ** Sample runs *)

(** The scenario of a provisioned binary started on [/bin/echo hello]. *)
Example run_echo_hello :
  run provisioned (main 3 ["sploit"; "/bin/echo"; "hello"]) user =
  mkResult (Replaced (Some "/bin/echo") ["/bin/echo"; "hello"])
    [ReqSetuid 0; ReqExecv (Some "/bin/echo") ["/bin/echo"; "hello"]]
    (mkProcess 0 0 "" "" (environ user) (files user)).
Proof.
  reflexivity.
Qed.

(** The same invocation where the setuid bit is not honoured. *)
Example run_echo_hello_nosuid :
  run nosuid (main 3 ["sploit"; "/bin/echo"; "hello"]) user =
  mkResult Aborted [ReqSetuid 0; ReqPerror "setuid"; ReqAbort]
    (mkProcess 1000 EPERM ""
       ("setuid: Operation not permitted" ++ newline)
       (environ user) (files user)).
Proof.
  reflexivity.
Qed.

(** No target: [argv[1]] is the terminator of the array, and the request is
    for the null path with an empty vector. *)
Example run_no_target :
  run provisioned (main 1 ["sploit"]) user =
  mkResult Aborted
    [ReqSetuid 0; ReqExecv NULL []; ReqPerror "execl"; ReqAbort]
    (mkProcess 0 EFAULT "" ("execl: Bad address" ++ newline)
       (environ user) (files user)).
Proof.
  reflexivity.
Qed.

(** A system that lets the null path through replaces the image even then:
    the failure of an invocation without target is the system's refusal. *)
Example run_no_target_lenient :
  ending (run lenient (main 1 ["sploit"]) user) = Replaced NULL [].
Proof.
  reflexivity.
Qed.

(** Programs that call something else leave more behind: one that empties
    the environment before it does what [main] does hands an empty
    environment to the new image, and one that deletes a file first leaves
    the files changed. *)
Example run_after_clearenv :
  final
    (run provisioned
       (Call (Other "clearenv" [])
          (fun _ => main 3 ["sploit"; "/bin/echo"; "hello"])) user)
  = mkProcess 0 0 "" "" [] (files user).
Proof.
  reflexivity.
Qed.

Example run_after_remove :
  final
    (run provisioned
       (Call (Other "remove" ["/etc/hostname"])
          (fun _ => main 3 ["sploit"; "/bin/echo"; "hello"])) user)
  = mkProcess 0 0 "" "" (environ user) [].
Proof.
  reflexivity.
Qed.

(** ** The failure of the privilege transition *)

(** C1: when the request to set the user identity to the superuser is
    refused, the program writes the system's description of the error to the
    standard error stream, then aborts, and never requests the replacement
    of the process image. *)
Theorem setuid_failure_aborts
  (S : system) (argc : Z) (argv : list string) (p : process) (e : Z) :
  sys_setuid S 0 p = Some e ->
  let r := run S (main argc argv) p in
  ending r = Aborted /\
  trace r = [ReqSetuid 0; ReqPerror "setuid"; ReqAbort] /\
  stderr (final r) = (stderr p ++ "setuid: " ++ strerror S e ++ newline)%string /\
  exec_attempted r = false.
Proof.
  intros Hset r. subst r.
  rewrite (run_setuid_refused S argc argv p e Hset).
  repeat split.
Qed.

Lemma setuid_failure_aborts_witness :
  let r := run nosuid (main 2 ["sploit"; "/bin/echo"]) user in
  ending r = Aborted /\
  trace r = [ReqSetuid 0; ReqPerror "setuid"; ReqAbort] /\
  stderr (final r)
  = (stderr user ++ "setuid: " ++ strerror nosuid EPERM ++ newline)%string /\
  exec_attempted r = false.
Proof.
  apply (setuid_failure_aborts nosuid 2 ["sploit"; "/bin/echo"] user EPERM).
  reflexivity.
Defined.

(** ** The replacement of the process image *)

(** C2: when the privilege transition succeeds and the argument vector has at
    least two elements, the one replacement request names [argv[1]] as the
    executable and passes [argv[1]], [argv[2]], ... in that order as the new
    argument vector, so that a granted request starts the target with its own
    path as its [argv[0]]. *)
Theorem exec_forwards_arguments
  (S : system) (argc : Z) (name path : string) (rest : list string)
  (p : process) :
  sys_setuid S 0 p = None ->
  let r := run S (main argc (name :: path :: rest)) p in
  filter is_execv (trace r) = [ReqExecv (Some path) (path :: rest)] /\
  nth_error (trace r) 1 = Some (ReqExecv (Some path) (path :: rest)) /\
  ending r =
  match sys_execve S (Some path) (path :: rest) (set_uid 0 p) with
  | None => Replaced (Some path) (path :: rest)
  | Some _ => Aborted
  end.
Proof.
  intros Hset r. subst r.
  rewrite run_main, Hset. cbn [hd_error].
  destruct (sys_execve S (Some path) (path :: rest) (set_uid 0 p));
    repeat split.
Qed.

Lemma exec_forwards_arguments_witness :
  let r := run provisioned (main 3 ["sploit"; "/bin/echo"; "hello"]) user in
  filter is_execv (trace r)
  = [ReqExecv (Some "/bin/echo") ["/bin/echo"; "hello"]] /\
  nth_error (trace r) 1
  = Some (ReqExecv (Some "/bin/echo") ["/bin/echo"; "hello"]) /\
  ending r =
  match
    sys_execve provisioned (Some "/bin/echo") ["/bin/echo"; "hello"]
      (set_uid 0 user)
  with
  | None => Replaced (Some "/bin/echo") ["/bin/echo"; "hello"]
  | Some _ => Aborted
  end.
Proof.
  apply (exec_forwards_arguments provisioned 3 "sploit" "/bin/echo" ["hello"]
           user).
  reflexivity.
Defined.

(** C3: when the privilege transition succeeds and the replacement request is
    refused, the program writes the system's description of the error to the
    standard error stream and aborts; the request is made once, and the
    process does not go on under the superuser identity. *)
Theorem exec_failure_aborts
  (S : system) (argc : Z) (name : string) (rest : list string)
  (p : process) (e : Z) :
  sys_setuid S 0 p = None ->
  sys_execve S (hd_error rest) rest (set_uid 0 p) = Some e ->
  let r := run S (main argc (name :: rest)) p in
  ending r = Aborted /\
  trace r =
  [ReqSetuid 0; ReqExecv (hd_error rest) rest; ReqPerror "execl"; ReqAbort] /\
  stderr (final r) = (stderr p ++ "execl: " ++ strerror S e ++ newline)%string.
Proof.
  intros Hset Hexec r. subst r.
  rewrite run_main, Hset, Hexec.
  repeat split.
Qed.

Lemma exec_failure_aborts_witness :
  let r := run provisioned (main 2 ["sploit"; "/bin/nothing"]) user in
  ending r = Aborted /\
  trace r =
  [ReqSetuid 0; ReqExecv (Some "/bin/nothing") ["/bin/nothing"];
   ReqPerror "execl"; ReqAbort] /\
  stderr (final r)
  = (stderr user ++ "execl: " ++ strerror provisioned ENOENT ++ newline)%string.
Proof.
  apply (exec_failure_aborts provisioned 2 "sploit" ["/bin/nothing"] user
           ENOENT); reflexivity.
Defined.

(** ** How an invocation ends *)

(** The [return 0] of [main] is a leaf of the program: it is where control
    would arrive, had [execv] come back with a result that is not negative. *)
Lemma return_leaf (argc : Z) (name : string) (rest : list string) (r : Z) :
  (r <? 0) = false ->
  exists (k k' : Z -> prog Z),
    main argc (name :: rest) = Call (Setuid 0) k /\
    k 0 = Call (Execv (hd_error rest) rest) k' /\
    k' r = Ret 0.
Proof.
  intros Hr. unfold main, load. rewrite argv_at_1, argv_from_1. cbn.
  eexists. eexists. split; [reflexivity|].
  split; [reflexivity|].
  cbn. rewrite Hr. reflexivity.
Qed.

(** C4: no invocation completes with the zero return of [main]: every run
    ends in the replacement of the process image or in an abort. *)
Theorem never_returns
  (S : system) (argc : Z) (name : string) (rest : list string) (p : process) :
  let r := run S (main argc (name :: rest)) p in
  (ending r = Aborted \/ ending r = Replaced (hd_error rest) rest) /\
  (forall status : Z, ending r <> Returned status).
Proof.
  intros r. subst r. rewrite run_main.
  destruct (sys_setuid S 0 p) as [e|];
    [|destruct (sys_execve S (hd_error rest) rest (set_uid 0 p)) as [e|]];
    cbn; split; auto; discriminate.
Qed.

(** ** The privilege transition *)

(** C5: the first call of every invocation asks for the user identity 0 and
    no other; what follows depends on the answer only through its being
    negative or not; and every run makes that request exactly once. *)
Theorem requests_superuser (argc : Z) (argv : list string) :
  exists k : Z -> prog Z,
    main argc argv = Call (Setuid 0) k /\
    (forall r : Z, k r = if r <? 0 then k (-1) else k 0) /\
    (forall (S : system) (p : process),
        filter is_setuid (trace (run S (main argc argv) p)) = [ReqSetuid 0]).
Proof.
  eexists. split; [reflexivity|]. split.
  - intros r. cbn. destruct (r <? 0); reflexivity.
  - intros S p.
    destruct (sys_setuid S 0 p) as [e|] eqn:Hset.
    + rewrite (run_setuid_refused S argc argv p e Hset). reflexivity.
    + destruct argv as [|name rest].
      * rewrite (run_outside S argc p Hset). reflexivity.
      * rewrite run_main, Hset.
        destruct (sys_execve S (hd_error rest) rest (set_uid 0 p));
          reflexivity.
Qed.

(** ** The missing target *)

(** With [argv] made of the program's name alone, a replacement request can
    only carry the null path and the empty vector. *)
Lemma missing_target_request (S : system) (argc : Z) (name : string)
  (p : process) :
  let r := run S (main argc [name]) p in
  filter is_execv (trace r) = [] \/
  filter is_execv (trace r) = [ReqExecv NULL []].
Proof.
  intros r. subst r. rewrite run_main. cbn [hd_error].
  destruct (sys_setuid S 0 p) as [e|];
    [|destruct (sys_execve S None [] (set_uid 0 p)) as [e|]];
    cbn; auto.
Qed.

(** C6: with no target path supplied, on a system that refuses to execute the
    null path, the invocation fails in a visible way: it aborts after a line
    on the standard error stream, and the process image is not replaced. *)
Theorem missing_target_fails
  (S : system) (argc : Z) (name : string) (p : process) :
  (forall (args : list string) (q : process), sys_execve S NULL args q <> None) ->
  let r := run S (main argc [name]) p in
  ending r = Aborted /\
  (exists label e : _,
      (label = "setuid" \/ label = "execl") /\
      filter is_perror (trace r) = [ReqPerror label] /\
      stderr (final r)
      = (stderr p ++ label ++ ": " ++ strerror S e ++ newline)%string) /\
  (forall (target : cstr) (args : list string),
      ending r <> Replaced target args).
Proof.
  intros Hnull r. subst r. rewrite run_main. cbn [hd_error].
  destruct (sys_setuid S 0 p) as [e|].
  - split; [reflexivity|]. split; [|discriminate].
    exists "setuid", e. repeat split. left. reflexivity.
  - destruct (sys_execve S None [] (set_uid 0 p)) as [e|] eqn:Hexec.
    + split; [reflexivity|]. split; [|discriminate].
      exists "execl", e. repeat split. right. reflexivity.
    + exfalso. exact (Hnull [] (set_uid 0 p) Hexec).
Qed.

Lemma missing_target_fails_witness :
  let r := run provisioned (main 1 ["sploit"]) user in
  ending r = Aborted /\
  (exists label e : _,
      (label = "setuid" \/ label = "execl") /\
      filter is_perror (trace r) = [ReqPerror label] /\
      stderr (final r)
      = (stderr user ++ label ++ ": " ++ strerror provisioned e ++ newline)%string) /\
  (forall (target : cstr) (args : list string),
      ending r <> Replaced target args).
Proof.
  apply (missing_target_fails provisioned 1 "sploit" user).
  intros args q. simpl. discriminate.
Defined.

(** ** The sequence of operations *)

(** C7: every run makes the identity request first and then at most one
    replacement request, each of them once and nothing else in between:
    the two steps of a run are [setuid(0)] alone, or [setuid(0)] followed by
    one [execv] on [&argv[1]]. *)
Theorem two_steps_in_sequence
  (S : system) (argc : Z) (argv : list string) (p : process) :
  let r := run S (main argc argv) p in
  steps (trace r) = [ReqSetuid 0] \/
  exists path : cstr,
    steps (trace r) = [ReqSetuid 0; ReqExecv path (argv_from argv 1)].
Proof.
  intros r. subst r.
  destruct (sys_setuid S 0 p) as [e|] eqn:Hset.
  - rewrite (run_setuid_refused S argc argv p e Hset). left. reflexivity.
  - destruct argv as [|name rest].
    + rewrite (run_outside S argc p Hset). left. reflexivity.
    + rewrite run_main, Hset, argv_from_1. right. exists (hd_error rest).
      destruct (sys_execve S (hd_error rest) rest (set_uid 0 p));
        reflexivity.
Qed.

(** ** What a run leaves behind *)




(** ** Independence from the arguments *)

(** C9: two invocations that differ in their arguments open with the same
    request, for the identity 0, and each reaches the replacement step
    exactly when that request is granted. *)
Theorem arguments_do_not_reach_setuid
  (S : system) (p : process) (argc1 argc2 : Z) (name1 name2 : string)
  (rest1 rest2 : list string) :
  let r1 := run S (main argc1 (name1 :: rest1)) p in
  let r2 := run S (main argc2 (name2 :: rest2)) p in
  hd_error (trace r1) = Some (ReqSetuid 0) /\
  hd_error (trace r2) = Some (ReqSetuid 0) /\
  exec_attempted r1 = granted (sys_setuid S 0 p) /\
  exec_attempted r2 = granted (sys_setuid S 0 p).
Proof.
  intros r1 r2. subst r1 r2. rewrite !run_main.
  destruct (sys_setuid S 0 p) as [e|].
  - repeat split.
  - destruct (sys_execve S (hd_error rest1) rest1 (set_uid 0 p)),
             (sys_execve S (hd_error rest2) rest2 (set_uid 0 p));
      repeat split.
Qed.

(** ** The labels of the error lines *)

(** C10: the line on the standard error stream starts with the label
    [setuid] when the privilege transition fails and with the label [execl]
    when the replacement fails, each followed by the system's description;
    a line of the first kind is never equal to a line of the second. *)
Theorem error_labels
  (S : system) (argc : Z) (name : string) (rest : list string) (p : process) :
  let r := run S (main argc (name :: rest)) p in
  match sys_setuid S 0 p with
  | Some e =>
      stderr (final r)
      = (stderr p ++ "setuid: " ++ strerror S e ++ newline)%string
  | None =>
      match sys_execve S (hd_error rest) rest (set_uid 0 p) with
      | Some e =>
          stderr (final r)
          = (stderr p ++ "execl: " ++ strerror S e ++ newline)%string
      | None => stderr (final r) = stderr p
      end
  end /\
  (forall m m' : string,
      ("setuid: " ++ m ++ newline)%string <> ("execl: " ++ m' ++ newline)%string).
Proof.
  intros r. subst r. rewrite run_main. split.
  - destruct (sys_setuid S 0 p) as [e|];
      [|destruct (sys_execve S (hd_error rest) rest (set_uid 0 p)) as [e|]];
      reflexivity.
  - intros m m'. cbn. discriminate.
Qed.

(** ** Further properties of [main] *)

(** X1: a run ends in the replacement of the process image only if the
    identity change was granted before; the image replaced is then the one
    named by [argv[1]], with the vector at [&argv[1]], the system granted
    that request to a process of identity 0, and nothing of the process but
    its identity has changed. *)
Theorem replaced_only_when_elevated
  (S : system) (argc : Z) (argv : list string) (p : process)
  (path : cstr) (args : list string) :
  ending (run S (main argc argv) p) = Replaced path args ->
  sys_setuid S 0 p = None /\
  argv_at argv 1 = Ptr path /\
  args = argv_from argv 1 /\
  sys_execve S path args (set_uid 0 p) = None /\
  final (run S (main argc argv) p) = set_uid 0 p.
Proof.
  destruct (sys_setuid S 0 p) as [e|] eqn:Hset.
  - rewrite (run_setuid_refused S argc argv p e Hset). discriminate.
  - destruct argv as [|name rest].
    + rewrite (run_outside S argc p Hset). discriminate.
    + rewrite run_main, Hset, argv_at_1, argv_from_1.
      destruct (sys_execve S (hd_error rest) rest (set_uid 0 p)) as [e|]
        eqn:Hexec; cbn; [discriminate|].
      intros Hend. injection Hend as Hpath Hargs. subst path args.
      repeat split. exact Hexec.
Qed.

Lemma replaced_only_when_elevated_witness :
  sys_setuid provisioned 0 user = None /\
  argv_at ["sploit"; "/bin/echo"; "hello"] 1 = Ptr (Some "/bin/echo") /\
  ["/bin/echo"; "hello"] = argv_from ["sploit"; "/bin/echo"; "hello"] 1 /\
  sys_execve provisioned (Some "/bin/echo") ["/bin/echo"; "hello"]
    (set_uid 0 user) = None /\
  final (run provisioned (main 3 ["sploit"; "/bin/echo"; "hello"]) user)
  = set_uid 0 user.
Proof.
  apply (replaced_only_when_elevated provisioned 3
           ["sploit"; "/bin/echo"; "hello"] user
           (Some "/bin/echo") ["/bin/echo"; "hello"]).
  reflexivity.
Defined.

(** X2: the program reads neither [argc] nor [argv[0]]: two invocations that
    agree from [argv[1]] on are the same program. *)
Theorem name_and_count_unused
  (argc1 argc2 : Z) (name1 name2 : string) (rest : list string) :
  main argc1 (name1 :: rest) = main argc2 (name2 :: rest).
Proof.
  unfold main, load. rewrite !argv_at_1, !argv_from_1. reflexivity.
Qed.

(** X3: the program does not check that a target was given.  With the
    program's name alone in [argv] and the identity change granted, it goes
    on to request the replacement with the null path and an empty vector,
    as the superuser; whether the run then ends in the replacement or in an
    abort is the system's answer to that request. *)
Theorem missing_target_still_requested
  (S : system) (argc : Z) (name : string) (p : process) :
  sys_setuid S 0 p = None ->
  let r := run S (main argc [name]) p in
  firstn 2 (trace r) = [ReqSetuid 0; ReqExecv NULL []] /\
  uid (final r) = 0 /\
  ending r =
  match sys_execve S NULL [] (set_uid 0 p) with
  | None => Replaced NULL []
  | Some _ => Aborted
  end.
Proof.
  intros Hset r. subst r. rewrite run_main, Hset. cbn [hd_error].
  unfold NULL.
  destruct (sys_execve S None [] (set_uid 0 p)); repeat split.
Qed.

Lemma missing_target_still_requested_witness :
  let r := run provisioned (main 1 ["sploit"]) user in
  firstn 2 (trace r) = [ReqSetuid 0; ReqExecv NULL []] /\
  uid (final r) = 0 /\
  ending r =
  match sys_execve provisioned NULL [] (set_uid 0 user) with
  | None => Replaced NULL []
  | Some _ => Aborted
  end.
Proof.
  apply (missing_target_still_requested provisioned 1 "sploit" user).
  reflexivity.
Defined.

(** X5: the program never gives the identity back.  Whatever the arguments
    and however the run ends, the process ends as the superuser when the
    identity change was granted, also when the replacement is refused and
    the run aborts, and with the identity it started with otherwise. *)
Theorem identity_never_given_back
  (S : system) (argc : Z) (argv : list string) (p : process) :
  uid (final (run S (main argc argv) p))
  = (if granted (sys_setuid S 0 p) then 0 else uid p).
Proof.
  destruct (sys_setuid S 0 p) as [e|] eqn:Hset.
  - rewrite (run_setuid_refused S argc argv p e Hset). reflexivity.
  - destruct argv as [|name rest].
    + rewrite (run_outside S argc p Hset). reflexivity.
    + rewrite run_main, Hset.
      destruct (sys_execve S (hd_error rest) rest (set_uid 0 p));
        reflexivity.
Qed.

(** X6: the two tests of [main] look at the sign of the results only.  A
    negative result of [setuid], of any value, ends in the abort, and any
    other result lets the program go on; an [execv] that comes back negative
    ends in the abort, and one that comes back with any other value lets
    [main] return, with status 0 and no other. *)
Theorem tests_look_at_sign
  (A : answers) (argc : Z) (argv : list string) :
  ends A (main argc argv) =
  if setuid_returns A <? 0 then Aborted
  else
    match argv_at argv 1 with
    | Outside => Undef
    | Ptr path =>
        match execv_returns A with
        | None => Replaced path (argv_from argv 1)
        | Some r => if r <? 0 then Aborted else Returned 0
        end
    end.
Proof.
  unfold main, load. cbn.
  destruct (setuid_returns A <? 0); cbn; [reflexivity|].
  destruct (argv_at argv 1) as [path|]; cbn; [|reflexivity].
  destruct (execv_returns A) as [r|]; cbn; [|reflexivity].
  destruct (r <? 0); reflexivity.
Qed.
